(** * kj::modulebound_allocator

  A shallow embedding of [modulebound_allocator_fwddecl.h] and
  [modulebound_allocator.h]: a stateful C++ allocator that captures the
  raw allocation operators of the module it is constructed in.

  Layout of the development:
  - [cpp]: the fragment of the C++ type system and of [<type_traits>],
    [<utility>] that the headers rely on;
  - [kj]: the headers themselves.  Template parameters are ordinary
    arguments, template instantiation is a function into
    [compile_result], and the run-time behaviour of a member is a
    computation in a state monad over the allocator objects, the free
    store of the hosting process and the log of raw operator calls;
  - the properties of the allocator. *)

From Stdlib Require Import String.
From stdpp Require Import base option numbers gmap.

Local Open Scope N_scope.

(** ** The C++ side: types and standard traits *)
Module cpp.

(** Non-array, non-reference types without their cv-qualification.
    A class type carries its size. *)
Inductive unqualified_type : Type :=
  | Tvoid
  | Tchar
  | Tint
  | Tdouble
  | Tclass (name : string) (size : N).

(** Types that are not references.  The const-qualification of an array
    is that of its elements, so const lives at the leaves only. *)
Inductive object_type : Type :=
  | Tplain (is_const : bool) (t : unqualified_type)
  | Tarray (elem : object_type) (bound : option N).

(** [T], [T&] or [T&&]. *)
Inductive ref_qualifier : Type := no_ref | lvalue_ref | rvalue_ref.

(** A type: references are never nested and never array elements. *)
Record type : Type := mk_type { ref_of : ref_qualifier; referred : object_type }.

Definition object (o : object_type) : type := mk_type no_ref o.

(** [std::is_array], [std::is_reference] *)
Definition is_array (T : type) : bool :=
  match ref_of T, referred T with
  | no_ref, Tarray _ _ => true
  | _, _ => false
  end.

Definition is_reference (T : type) : bool :=
  match ref_of T with
  | no_ref => false
  | _ => true
  end.

(** [std::remove_reference] *)
Definition remove_reference (T : type) : type := object (referred T).

(** [std::remove_all_extents]; a reference is not an array and is left alone. *)
Fixpoint strip_extents (o : object_type) : object_type :=
  match o with
  | Tarray elem _ => strip_extents elem
  | Tplain _ _ => o
  end.

Definition remove_all_extents (T : type) : type :=
  match ref_of T with
  | no_ref => object (strip_extents (referred T))
  | _ => T
  end.

(** [std::remove_const] and [std::add_const]; both leave references alone. *)
Fixpoint set_const (c : bool) (o : object_type) : object_type :=
  match o with
  | Tplain _ t => Tplain c t
  | Tarray elem n => Tarray (set_const c elem) n
  end.

Definition remove_const (T : type) : type :=
  match ref_of T with
  | no_ref => object (set_const false (referred T))
  | _ => T
  end.

Definition add_const (T : type) : type :=
  match ref_of T with
  | no_ref => object (set_const true (referred T))
  | _ => T
  end.

(** [std::add_lvalue_reference], [std::add_rvalue_reference] with
    reference collapsing. *)
Definition add_lvalue_reference (T : type) : type :=
  mk_type lvalue_ref (referred T).

Definition add_rvalue_reference (T : type) : type :=
  match ref_of T with
  | no_ref => mk_type rvalue_ref (referred T)
  | _ => T
  end.

(** [sizeof]: none for incomplete types ([void], arrays of unknown bound). *)
Definition sizeof_unqualified (t : unqualified_type) : option N :=
  match t with
  | Tvoid => None
  | Tchar => Some 1
  | Tint => Some 4
  | Tdouble => Some 8
  | Tclass _ size => Some size
  end.

Fixpoint sizeof_object (o : object_type) : option N :=
  match o with
  | Tplain _ t => sizeof_unqualified t
  | Tarray elem (Some n) =>
      match sizeof_object elem with
      | Some s => Some (n * s)
      | None => None
      end
  | Tarray _ None => None
  end.

(** [sizeof] of a reference is that of the referred type. *)
Definition sizeof (T : type) : option N := sizeof_object (referred T).

(** Two types that differ at most in constness and in reference
    qualification: equal once both are removed. *)
Definition remove_cvref (T : type) : type := remove_const (remove_reference T).

Definition same_up_to_const (T U : type) : Prop := remove_const T = remove_const U.
Definition same_up_to_cvref (T U : type) : Prop := remove_cvref T = remove_cvref U.

(** The translation environment: the predefined macro [_MSC_VER]
    (an identifier that is not defined evaluates to 0 in [#if]) and
    the width of [size_t]. *)
Record target : Type := mk_target { _MSC_VER : N; size_t_bits : N }.

(** Unsigned arithmetic on [size_t]. *)
Definition size_t_mul (tg : target) (a b : N) : N := (a * b) mod 2 ^ size_t_bits tg.

(** What the translation of a template instantiation yields. *)
Inductive diagnostic : Type :=
  | static_assertion_failed
  | undeclared_identifier (name : string)
  | incomplete_type
  | not_declared.

Inductive compile_result (A : Type) : Type :=
  | Compiled (a : A)
  | Rejected (d : diagnostic).
Arguments Compiled {A} a.
Arguments Rejected {A} d.

Definition is_rejected {A} (r : compile_result A) : bool :=
  match r with
  | Compiled _ => false
  | Rejected _ => true
  end.

(** [static_assert(cond, ...)], and its pre-C++11 spelling
    [typedef char t[cond ? 1 : -1]], in front of a body. *)
Definition static_assert {A} (cond : bool) (body : A) : compile_result A :=
  if cond then Compiled body else Rejected static_assertion_failed.

(** [#if] guarding a declaration. *)
Definition declared_if {A} (cond : bool) (r : compile_result A) : compile_result A :=
  if cond then r else Rejected not_declared.

End cpp.

(** ** The headers *)
Module kj.
Import cpp.

(** *** modulebound_allocator_fwddecl.h *)

(** Addresses of objects and of heap blocks; [null] is the null pointer. *)
Abbreviation address := N (only parsing).
Definition null : address := 0.

(** [fp_raw_allocate_t] is [void* ( * )(size_t)] and [fp_raw_deallocate_t]
    is [void ( * )(void* )]: a function pointer is the address of the
    function, and is compared by that address. *)
Abbreviation fp_raw_allocate_t := N (only parsing).
Abbreviation fp_raw_deallocate_t := N (only parsing).

Inductive raw_allocation_type : Type :=
  | raw_allocation_single
  | raw_allocation_array
  | raw_allocation_deduce.

(** The enumerators' values. *)
Definition enumerator (r : raw_allocation_type) : N :=
  match r with
  | raw_allocation_single => 0
  | raw_allocation_array => 1
  | raw_allocation_deduce => 2
  end.

(** The default argument of the template parameter [RawAllocation]:
    [std::integral_constant<raw_allocation_type,
       std::is_array<T>::value ? raw_allocation_array : raw_allocation_single>].
    An [integral_constant] is represented by its [value]. *)
Definition default_RawAllocation (T : type) : raw_allocation_type :=
  if is_array T then raw_allocation_array else raw_allocation_single.

(** *** modulebound_allocator.h, namespace detail *)
Module detail.

Definition remove_reference_and_all_extents (T : type) : type :=
  remove_all_extents (remove_reference T).

(** The global allocation operators that the names [::operator new],
    [::operator new[]], [::operator delete] and [::operator delete[]]
    denote in one module (shared library or executable).
    [fetch_raw_operators] is inline: every module gets its own copy,
    bound to the operators of that module. *)
Record module_operators : Type := mk_module {
  operator_new : fp_raw_allocate_t;
  operator_new_array : fp_raw_allocate_t;
  operator_delete : fp_raw_deallocate_t;
  operator_delete_array : fp_raw_deallocate_t }.

Definition fetch_raw_operators (here : module_operators) (is_array_allocation : bool)
  : fp_raw_allocate_t * fp_raw_deallocate_t :=
  (if is_array_allocation then operator_new_array here else operator_new here,
   if is_array_allocation then operator_delete_array here else operator_delete here).

End detail.
Import detail.

(** [std::pair<fp_raw_allocate_t, fp_raw_deallocate_t>] with the
    comparison operators of [<utility>]: [x == y] is
    [x.first == y.first && x.second == y.second] and [x != y] is
    [!(x == y)]. *)
Abbreviation raw_operators := (N * N)%type (only parsing).

Definition pair_eq (x y : raw_operators) : bool :=
  (x.1 =? y.1) && (x.2 =? y.2).

Definition pair_ne (x y : raw_operators) : bool := negb (pair_eq x y).

(** *** The process the allocators run in *)

(** The behaviour of the code behind the raw function pointers, supplied
    by the hosting environment: allocation yields an address or fails
    (it throws [std::bad_alloc]); deallocation does not throw. *)
Class Runtime : Type := {
  free_store : Type;
  invoke_allocate : fp_raw_allocate_t -> N -> free_store -> option address * free_store;
  invoke_deallocate : fp_raw_deallocate_t -> address -> free_store -> free_store }.

(** The requirement on a raw deallocation function that the header's
    note on [deallocate] counts on: a null pointer is accepted and
    nothing happens. *)
Definition accepts_null `{Runtime} (f : fp_raw_deallocate_t) : Prop :=
  forall s : free_store, invoke_deallocate f null s = s.

Inductive raw_call : Type :=
  | call_allocate (f : fp_raw_allocate_t) (bytes : N)
  | call_deallocate (f : fp_raw_deallocate_t) (p : address).

(** The state of a run: the member [m_raw_operators] of every live
    allocator object, by the object's address; the free store; and the
    calls made through raw function pointers so far, oldest first. *)
Record state `{Runtime} : Type := mk_state {
  objects : gmap N (N * N);
  store : free_store;
  calls : list raw_call }.
Arguments mk_state {_} objects store calls.

Inductive exception : Type := bad_alloc.

(** How a computation ends.  [Undefined]: a reference that denotes no
    live allocator object was read or assigned through. *)
Inductive outcome (A : Type) : Type :=
  | Returns (a : A)
  | Throws (e : exception)
  | Undefined.
Arguments Returns {A} a.
Arguments Throws {A} e.
Arguments Undefined {A}.

Definition M `{Runtime} (A : Type) : Type := state -> outcome A * state.

#[global] Instance M_ret `{Runtime} : MRet M := fun A a st => (Returns a, st).

#[global] Instance M_bind `{Runtime} : MBind M := fun A B k c st =>
  match c st with
  | (Returns a, st') => k a st'
  | (Throws e, st') => (Throws e, st')
  | (Undefined, st') => (Undefined, st')
  end.

Section primitives.
Context `{Runtime}.

(** Read [m_raw_operators] of the object at [this]. *)
Definition load (this : address) : M raw_operators := fun st =>
  match objects st !! this with
  | Some ops => (Returns ops, st)
  | None => (Undefined, st)
  end.

(** Member initialisation [m_raw_operators(ops)] of the object that
    comes to life at [this]. *)
Definition init (this : address) (ops : raw_operators) : M unit := fun st =>
  (Returns tt, mk_state (<[this := ops]> (objects st)) (store st) (calls st)).

(** Assignment [m_raw_operators = ops] in the live object at [this]. *)
Definition assign (this : address) (ops : raw_operators) : M unit := fun st =>
  match objects st !! this with
  | Some _ => (Returns tt, mk_state (<[this := ops]> (objects st)) (store st) (calls st))
  | None => (Undefined, st)
  end.

(** A call through a raw allocation function pointer. *)
Definition call_first (f : fp_raw_allocate_t) (bytes : N) : M address := fun st =>
  let (r, s) := invoke_allocate f bytes (store st) in
  (match r with Some p => Returns p | None => Throws bad_alloc end,
   mk_state (objects st) s (calls st ++ [call_allocate f bytes])).

(** A call through a raw deallocation function pointer. *)
Definition call_second (f : fp_raw_deallocate_t) (p : address) : M unit := fun st =>
  (Returns tt,
   mk_state (objects st) (invoke_deallocate f p (store st)) (calls st ++ [call_deallocate f p])).

End primitives.

(** Applies [f] to what an instantiation yields. *)
Definition translate {A B} (f : A -> B) (r : compile_result A) : compile_result B :=
  match r with
  | Compiled a => Compiled (f a)
  | Rejected d => Rejected d
  end.

(** *** class modulebound_allocator_base<T, RawAllocation>

    The base subobject [std::allocator<...>] has no state: its
    construction and assignment ([base(rOther)], [base::operator =(rOther)])
    leave no trace and are not written out. *)
Module modulebound_allocator_base.

(** [rebind<U>::other] is [modulebound_allocator<U, RawAllocation>]:
    the template arguments of the rebound allocator. *)
Definition rebind (T : type) (RawAllocation : raw_allocation_type) (U : type)
  : type * raw_allocation_type :=
  (U, RawAllocation).

(** [is_array_allocation::value].  In the second branch the enumerator
    is converted to [bool]: true iff it is not zero. *)
Definition is_array_allocation (T : type) (RawAllocation : raw_allocation_type) : bool :=
  if enumerator RawAllocation =? enumerator raw_allocation_deduce
  then is_array T
  else negb (enumerator RawAllocation =? 0).

Section members.
Context `{Runtime} (tg : target) (T : type) (RawAllocation : raw_allocation_type).

(** [raw_operators get_raw_operators() const] *)
Definition get_raw_operators (this : address) : M raw_operators := load this.

(** [modulebound_allocator_base()], compiled into the module [here]. *)
Definition ctor (here : module_operators) (this : address) : M unit :=
  init this (fetch_raw_operators here (is_array_allocation T RawAllocation)).

(** [modulebound_allocator_base(const modulebound_allocator_base& rOther)] *)
Definition copy_ctor (here : module_operators) (this rOther : address) : M unit :=
  init this (fetch_raw_operators here (is_array_allocation T RawAllocation)).

(** [operator =(const modulebound_allocator_base& rOther)] *)
Definition copy_assign (here : module_operators) (this rOther : address) : M address :=
  (if bool_decide (this ≠ rOther)
   then assign this (fetch_raw_operators here (is_array_allocation T RawAllocation))
   else mret tt) ≫= fun _ => mret this.

(** [template<U, RawAllocationU>
     modulebound_allocator_base(const modulebound_allocator_base<U, RawAllocationU>& rOther)].
    With [_MSC_VER >= 1600] the [static_assert] names [A_other], whose
    typedef stands in the other branch of the [#if]. *)
Definition copy_ctor_from (U : type) (RawAllocationU : raw_allocation_type)
  : compile_result (module_operators -> address -> address -> M unit) :=
  if 1600 <=? _MSC_VER tg
  then Rejected (undeclared_identifier "A_other")
  else
    static_assert
      (Bool.eqb (is_array_allocation T RawAllocation) (is_array_allocation U RawAllocationU))
      (fun here this rOther =>
         init this (fetch_raw_operators here (is_array_allocation T RawAllocation))).

(** [template<U, RawAllocationU>
     operator =(const modulebound_allocator_base<U, RawAllocationU>& rOther)].
    Both branches of the [#if] assert the same condition. *)
Definition copy_assign_from (U : type) (RawAllocationU : raw_allocation_type)
  : compile_result (module_operators -> address -> address -> M address) :=
  static_assert
    (Bool.eqb (is_array_allocation T RawAllocation) (is_array_allocation U RawAllocationU))
    (fun here this rOther =>
       (if bool_decide (this ≠ rOther)
        then assign this (fetch_raw_operators here (is_array_allocation T RawAllocation))
        else mret tt) ≫= fun _ => mret this).

(** [modulebound_allocator_base(const modulebound_allocator_base&& rOther)] *)
Definition move_ctor : compile_result (address -> address -> M unit) :=
  declared_if (1600 <=? _MSC_VER tg)
    (Compiled (fun this rOther =>
       ops ← get_raw_operators rOther; init this ops)).

(** [operator =(const modulebound_allocator_base&& rOther)] *)
Definition move_assign : compile_result (address -> address -> M address) :=
  declared_if (1600 <=? _MSC_VER tg)
    (Compiled (fun this rOther =>
       (if bool_decide (this ≠ rOther)
        then ops ← get_raw_operators rOther; assign this ops
        else mret tt) ≫= fun _ => mret this)).

(** [template<U, RawAllocationU>
     modulebound_allocator_base(const modulebound_allocator_base<U, RawAllocationU>&& rOther)] *)
Definition move_ctor_from (U : type) (RawAllocationU : raw_allocation_type)
  : compile_result (address -> address -> M unit) :=
  declared_if (1600 <=? _MSC_VER tg)
    (static_assert
       (Bool.eqb (is_array_allocation T RawAllocation) (is_array_allocation U RawAllocationU))
       (fun this rOther =>
          ops ← get_raw_operators rOther; init this ops)).

(** [template<U, RawAllocationU>
     operator =(const modulebound_allocator_base<U, RawAllocationU>&& rOther)] *)
Definition move_assign_from (U : type) (RawAllocationU : raw_allocation_type)
  : compile_result (address -> address -> M address) :=
  declared_if (1600 <=? _MSC_VER tg)
    (static_assert
       (Bool.eqb (is_array_allocation T RawAllocation) (is_array_allocation U RawAllocationU))
       (fun this rOther =>
          (if bool_decide (this ≠ rOther)
           then ops ← get_raw_operators rOther; assign this ops
           else mret tt) ≫= fun _ => mret this)).

End members.
End modulebound_allocator_base.

(** *** class modulebound_allocator<T, RawAllocation>

    The primary template and the specialization for [void] declare the
    same constructors and assignment operators, word for word; only the
    primary template has [allocate] and [deallocate]. *)
Module modulebound_allocator.

Section members.
Context `{Runtime} (tg : target) (T : type) (RawAllocation : raw_allocation_type).

(** Whether [T] selects [modulebound_allocator<void, RawAllocation>]. *)
Definition is_specialization_for_void : bool :=
  match ref_of T, referred T with
  | no_ref, Tplain false Tvoid => true
  | _, _ => false
  end.

(** [value_type], [pointer] and [size_type] are those of the base
    [std::allocator<remove_reference_and_all_extents<T>::type>]. *)
Definition value_type : type := remove_reference_and_all_extents T.

(** [modulebound_allocator()] *)
Definition ctor (here : module_operators) (this : address) : M unit :=
  modulebound_allocator_base.ctor T RawAllocation here this.

(** The implicitly defined copy constructor and copy assignment operator
    copy the base subobject with the base's own. *)
Definition copy_ctor (here : module_operators) (this rOther : address) : M unit :=
  modulebound_allocator_base.copy_ctor T RawAllocation here this rOther.

Definition copy_assign (here : module_operators) (this rOther : address) : M address :=
  _ ← modulebound_allocator_base.copy_assign T RawAllocation here this rOther;
  mret this.

(** [template<U, RawAllocationU>
     modulebound_allocator(const modulebound_allocator<U, RawAllocationU>& rOther)] *)
Definition copy_ctor_from (U : type) (RawAllocationU : raw_allocation_type)
  : compile_result (module_operators -> address -> address -> M unit) :=
  modulebound_allocator_base.copy_ctor_from tg T RawAllocation U RawAllocationU.

(** [template<U, RawAllocationU>
     operator =(const modulebound_allocator<U, RawAllocationU>& rOther)] *)
Definition copy_assign_from (U : type) (RawAllocationU : raw_allocation_type)
  : compile_result (module_operators -> address -> address -> M address) :=
  translate
    (fun base_assign here this rOther => _ ← base_assign here this rOther; mret this)
    (modulebound_allocator_base.copy_assign_from T RawAllocation U RawAllocationU).

(** [modulebound_allocator(const modulebound_allocator&& rOther)] *)
Definition move_ctor : compile_result (address -> address -> M unit) :=
  declared_if (1600 <=? _MSC_VER tg) (modulebound_allocator_base.move_ctor tg).

(** [operator =(const modulebound_allocator&& rOther)] *)
Definition move_assign : compile_result (address -> address -> M address) :=
  declared_if (1600 <=? _MSC_VER tg)
    (translate
       (fun base_assign this rOther => _ ← base_assign this rOther; mret this)
       (modulebound_allocator_base.move_assign tg)).

(** [template<U, RawAllocationU>
     modulebound_allocator(const modulebound_allocator<U, RawAllocationU>&& rOther)] *)
Definition move_ctor_from (U : type) (RawAllocationU : raw_allocation_type)
  : compile_result (address -> address -> M unit) :=
  declared_if (1600 <=? _MSC_VER tg)
    (modulebound_allocator_base.move_ctor_from tg T RawAllocation U RawAllocationU).

(** [template<U, RawAllocationU>
     operator =(const modulebound_allocator<U, RawAllocationU>&& rOther)].
    Its body is [base::operator =(std::move(Other)); return *this;]:
    the parameter is [rOther], and no [Other] is declared anywhere. *)
Definition move_assign_from (U : type) (RawAllocationU : raw_allocation_type)
  : compile_result (address -> address -> M address) :=
  declared_if (1600 <=? _MSC_VER tg)
    (Rejected (undeclared_identifier "Other")).

(** [pointer allocate(size_type nCount)]; the [static_cast] from
    [void*] to [pointer] keeps the address. *)
Definition allocate : compile_result (address -> N -> M address) :=
  if is_specialization_for_void then Rejected not_declared
  else
    match sizeof value_type with
    | Some size =>
        Compiled (fun this nCount =>
          ops ← modulebound_allocator_base.get_raw_operators this;
          p ← call_first ops.1 (size_t_mul tg size nCount);
          mret p)
    | None => Rejected incomplete_type
    end.

(** [pointer allocate(size_type nCount,
       typename modulebound_allocator<void, RawAllocation>::const_pointer)] *)
Definition allocate_hint : compile_result (address -> N -> address -> M address) :=
  translate (fun allocate this nCount _ => allocate this nCount) allocate.

(** [void deallocate(pointer p, size_type)] *)
Definition deallocate : compile_result (address -> address -> N -> M unit) :=
  if is_specialization_for_void then Rejected not_declared
  else
    Compiled (fun this p _ =>
      ops ← modulebound_allocator_base.get_raw_operators this;
      call_second ops.2 p).

End members.
End modulebound_allocator.

(** *** The comparison operators

    [operator ==] and [operator !=] on
    [const modulebound_allocator<T, RawAllocation>& rLeft] and
    [const modulebound_allocator<U, RawAllocationU>& rRight]; the four
    template parameters do not occur in the bodies. *)
Definition operator_eq `{Runtime} (rLeft rRight : address) : M bool :=
  l ← modulebound_allocator_base.get_raw_operators rLeft;
  r ← modulebound_allocator_base.get_raw_operators rRight;
  mret (pair_eq l r).

Definition operator_ne `{Runtime} (rLeft rRight : address) : M bool :=
  l ← modulebound_allocator_base.get_raw_operators rLeft;
  r ← modulebound_allocator_base.get_raw_operators rRight;
  mret (pair_ne l r).

End kj.

(** ** A concrete process, for running the definitions *)
Module example.
Import cpp kj kj.detail.

(** An executable and a shared library, each linked with its own
    run-time library: four operators apiece, at distinct addresses. *)
Definition exe : module_operators := mk_module 100 101 102 103.
Definition dll : module_operators := mk_module 200 201 202 203.

(** A free store: the next unused address and the live blocks.
    Requests above 4096 bytes fail; deleting a null pointer does nothing. *)
Definition process : Runtime := {|
  free_store := N * list N;
  invoke_allocate := fun _ bytes s =>
    if bytes <=? 4096
    then (Some s.1, (s.1 + bytes + 16, s.1 :: s.2))
    else (None, s);
  invoke_deallocate := fun _ p s =>
    if p =? 0 then s else (s.1, filter (fun q => q ≠ p) s.2) |}.

Definition msvc10 : target := mk_target 1600 32.
Definition gcc64 : target := mk_target 0 64.

Definition int : type := object (Tplain false Tint).
Definition char : type := object (Tplain false Tchar).
Definition double : type := object (Tplain false Tdouble).
Definition const_int : type := object (Tplain true Tint).
(** [int[3]], [const int[3]], [int(&)[3]], [char[]] *)
Definition int_3 : type := object (Tarray (Tplain false Tint) (Some 3)).
Definition const_int_3 : type := object (Tarray (Tplain true Tint) (Some 3)).
Definition ref_int_3 : type := mk_type lvalue_ref (Tarray (Tplain false Tint) (Some 3)).
Definition char_array : type := object (Tarray (Tplain false Tchar) None).

(** Two allocator objects, at 1000 (constructed in the executable) and
    at 2000 (constructed in the library), with an empty free store. *)
Definition st0 : @state process :=
  @mk_state process (<[1000 := (100, 102)]> (<[2000 := (200, 202)]> ∅)) (4096, @nil N) [].

End example.

Import cpp kj kj.detail.

(** [st] with the pair [ops] stored in the object at [a]. *)
Definition with_object `{Runtime} (st : state) (a : address) (ops : raw_operators) : state :=
  mk_state (<[a := ops]> (objects st)) (store st) (calls st).

(** What a call of [f] for [bytes] bytes answers in [st]. *)
Definition allocation_result `{Runtime} (f : fp_raw_allocate_t) (bytes : N) (st : state)
  : outcome address :=
  match (invoke_allocate f bytes (store st)).1 with
  | Some p => Returns p
  | None => Throws bad_alloc
  end.

(** ** Running the definitions *)

Example run_default_ctor :
  (modulebound_allocator.ctor example.char_array raw_allocation_deduce example.dll 3000 example.st0).2
    .(objects) !! 3000 = Some (201, 203).
Proof. reflexivity. Qed.

Example run_allocate_4_doubles :
  match modulebound_allocator.allocate (H := example.process) example.gcc64 example.double with
  | Compiled f => (f 1000 4 example.st0).2.(calls) = [call_allocate 100 32]
  | Rejected _ => False
  end.
Proof. reflexivity. Qed.

Example run_rebind_char_array :
  let A := modulebound_allocator_base.rebind example.char_array
             (default_RawAllocation example.char_array) example.char in
  A = (example.char, raw_allocation_array) ∧
  modulebound_allocator_base.is_array_allocation A.1 A.2 = true.
Proof. split; reflexivity. Qed.

(** ** Allocation kind resolution *)

Import modulebound_allocator_base.

Lemma is_array_allocation_single T :
  is_array_allocation T raw_allocation_single = false.
Proof. reflexivity. Qed.

Lemma is_array_allocation_array T :
  is_array_allocation T raw_allocation_array = true.
Proof. reflexivity. Qed.

Lemma is_array_allocation_deduce T :
  is_array_allocation T raw_allocation_deduce = is_array T.
Proof. reflexivity. Qed.

Lemma is_array_allocation_pinned T U RawAllocation :
  RawAllocation ≠ raw_allocation_deduce →
  is_array_allocation T RawAllocation = is_array_allocation U RawAllocation.
Proof. by destruct RawAllocation. Qed.

(** C6: the resolved kind ([true] for Array, [false] for Single) is
    Single under the policy Single, Array under Array, and under Deduced
    it is Array exactly when [T] is an array type.  [rebind<U>] yields
    the allocator for [U] with the same policy argument, so the kind of
    the rebound allocator is resolved from [U] and the policy alone:
    under Deduced it is Array iff [U] is an array type, whatever [T] was. *)
Theorem allocation_kind_resolution (T U : type) (RawAllocation : raw_allocation_type) :
  is_array_allocation T raw_allocation_single = false ∧
  is_array_allocation T raw_allocation_array = true ∧
  (is_array_allocation T raw_allocation_deduce = true ↔ is_array T = true) ∧
  rebind T RawAllocation U = (U, RawAllocation) ∧
  is_array_allocation (rebind T RawAllocation U).1 (rebind T RawAllocation U).2
    = is_array_allocation U RawAllocation ∧
  is_array_allocation (rebind T raw_allocation_deduce U).1 (rebind T raw_allocation_deduce U).2
    = is_array U.
Proof. repeat split; by rewrite ?is_array_allocation_deduce. Qed.

(** Constness never changes whether a type is an array. *)
Lemma set_const_array c o :
  match set_const c o with Tarray _ _ => true | Tplain _ _ => false end
  = match o with Tarray _ _ => true | Tplain _ _ => false end.
Proof. by destruct o. Qed.

Lemma is_array_remove_const T : is_array (remove_const T) = is_array T.
Proof.
  destruct T as [r o]. destruct r; try reflexivity.
  unfold is_array, remove_const. simpl. apply set_const_array.
Qed.

Lemma same_up_to_const_is_array T U :
  same_up_to_const T U → is_array T = is_array U.
Proof.
  unfold same_up_to_const. intros E.
  by rewrite <- (is_array_remove_const T), <- (is_array_remove_const U), E.
Qed.

Lemma same_up_to_cvref_referred T U :
  same_up_to_cvref T U →
  is_array (remove_reference T) = is_array (remove_reference U).
Proof.
  unfold same_up_to_cvref, remove_cvref. intros E.
  by apply same_up_to_const_is_array.
Qed.

Lemma is_array_no_reference T :
  is_reference T = false → is_array T = is_array (remove_reference T).
Proof. destruct T as [r o]. by destruct r. Qed.

Lemma is_array_reference T : is_reference T = true → is_array T = false.
Proof. destruct T as [r o]. by destruct r. Qed.

Lemma is_array_referred_not_array T :
  is_array (remove_reference T) = false → is_array T = false.
Proof. destruct T as [r o]. by destruct r. Qed.

(** Adding const keeps the kind under every policy; a reference under
    Deduced is never an array allocation. *)
Lemma kind_of_add_const T RawAllocation :
  is_array_allocation (add_const T) RawAllocation = is_array_allocation T RawAllocation.
Proof.
  destruct RawAllocation; try reflexivity.
  rewrite !is_array_allocation_deduce.
  destruct T as [r o]. destruct r; try reflexivity.
  unfold is_array, add_const. simpl. apply set_const_array.
Qed.

Lemma kind_of_reference_deduce T :
  is_array_allocation (add_lvalue_reference T) raw_allocation_deduce = false ∧
  is_array_allocation (add_rvalue_reference (remove_reference T)) raw_allocation_deduce = false.
Proof. split; reflexivity. Qed.

(** C8, as stated, fails: [int[3]] and [int(&)[3]] differ in reference
    qualification only, and under the policy Deduced the first resolves
    to Array, the second to Single. *)
Lemma kind_of_reference_to_array_differs :
  same_up_to_cvref example.int_3 example.ref_int_3 ∧
  is_array_allocation example.int_3 raw_allocation_deduce = true ∧
  is_array_allocation example.ref_int_3 raw_allocation_deduce = false.
Proof. repeat split. Qed.

(** C8, amended: two specializations with the same policy whose element
    types differ only in constness or reference qualification resolve to
    the same kind when the policy is Single or Array, or when the two
    element types are both references or both not (they differ in
    constness only), or when the type referred to is not an array. *)
Theorem kind_invariant_under_cvref (T U : type) (RawAllocation : raw_allocation_type) :
  same_up_to_cvref T U →
  RawAllocation ≠ raw_allocation_deduce
    ∨ is_reference T = is_reference U
    ∨ is_array (remove_reference T) = false →
  is_array_allocation T RawAllocation = is_array_allocation U RawAllocation.
Proof.
  intros E [Hp | [Hr | Hn]].
  - by apply is_array_allocation_pinned.
  - destruct RawAllocation; try reflexivity.
    rewrite !is_array_allocation_deduce.
    destruct (is_reference T) eqn:ET; symmetry in Hr.
    + by rewrite (is_array_reference T), (is_array_reference U).
    + rewrite (is_array_no_reference T), (is_array_no_reference U) by done.
      by apply same_up_to_cvref_referred.
  - destruct RawAllocation; try reflexivity.
    rewrite !is_array_allocation_deduce.
    rewrite (is_array_referred_not_array T) by done.
    rewrite (is_array_referred_not_array U); [done|].
    by rewrite <- (same_up_to_cvref_referred T U).
Qed.

Lemma kind_invariant_under_cvref_witness :
  is_array_allocation example.const_int_3 raw_allocation_deduce
  = is_array_allocation example.int_3 raw_allocation_deduce.
Proof.
  apply (kind_invariant_under_cvref example.const_int_3 example.int_3 raw_allocation_deduce).
  - reflexivity.
  - right. left. reflexivity.
Defined.

(** ** Running members *)

Ltac run :=
  unfold mbind, M_bind, mret, M_ret, get_raw_operators, load, init, assign,
    call_first, call_second, with_object; simpl.

Lemma pair_eq_spec (x y : raw_operators) :
  pair_eq x y = true ↔ x.1 = y.1 ∧ x.2 = y.2.
Proof. unfold pair_eq. rewrite andb_true_iff, !N.eqb_eq. done. Qed.

Section running.
Context `{Runtime}.

Lemma get_raw_operators_live st this ops :
  objects st !! this = Some ops →
  get_raw_operators this st = (Returns ops, st).
Proof. intros E. run. by rewrite E. Qed.

Lemma operator_eq_live st a b pa pb :
  objects st !! a = Some pa → objects st !! b = Some pb →
  operator_eq a b st = (Returns (pair_eq pa pb), st).
Proof. intros Ea Eb. unfold operator_eq. run. by rewrite Ea, Eb. Qed.

Lemma operator_ne_live st a b pa pb :
  objects st !! a = Some pa → objects st !! b = Some pb →
  operator_ne a b st = (Returns (negb (pair_eq pa pb)), st).
Proof. intros Ea Eb. unfold operator_ne. run. by rewrite Ea, Eb. Qed.

Lemma base_copy_assign_other T RawAllocation here this rOther st old :
  objects st !! this = Some old → this ≠ rOther →
  modulebound_allocator_base.copy_assign T RawAllocation here this rOther st
  = (Returns this,
     with_object st this (fetch_raw_operators here (is_array_allocation T RawAllocation))).
Proof.
  intros E Hne. unfold copy_assign. rewrite bool_decide_eq_true_2 by done.
  run. by rewrite E.
Qed.

Lemma base_copy_assign_self T RawAllocation here this st :
  modulebound_allocator_base.copy_assign T RawAllocation here this this st
  = (Returns this, st).
Proof.
  unfold copy_assign. rewrite bool_decide_eq_false_2 by (intros E; by apply E).
  reflexivity.
Qed.

Lemma size_t_mul_exact tg a b :
  a * b < 2 ^ size_t_bits tg → size_t_mul tg a b = a * b.
Proof. intros Hlt. unfold size_t_mul. by apply N.mod_small. Qed.

Lemma allocate_compiled tg T f :
  modulebound_allocator.allocate tg T = Compiled f →
  ∃ size, sizeof (remove_reference_and_all_extents T) = Some size ∧
    f = (fun this nCount =>
           ops ← get_raw_operators this;
           p ← call_first ops.1 (size_t_mul tg size nCount);
           mret p).
Proof.
  unfold modulebound_allocator.allocate, modulebound_allocator.value_type.
  destruct (modulebound_allocator.is_specialization_for_void T); [discriminate|].
  destruct (sizeof _) as [size|]; [|discriminate].
  intros [= <-]. by exists size.
Qed.

Lemma deallocate_compiled T f :
  modulebound_allocator.deallocate T = Compiled f →
  f = (fun this p _ => ops ← get_raw_operators this; call_second ops.2 p).
Proof.
  unfold modulebound_allocator.deallocate.
  destruct (modulebound_allocator.is_specialization_for_void T); [discriminate|]. by intros [= <-].
Qed.

End running.

(** ** Copying *)

(** C1: copy construction stores the pair fetched in the module the copy
    is made in, [here], whatever pair the source [rOther] holds; copy
    assignment from another object stores such a pair in the same way;
    copy assignment of an object to itself changes nothing. *)
Theorem copy_captures_afresh `{Runtime} (T : type) (RawAllocation : raw_allocation_type)
    (here : module_operators) (fresh this rOther : address) (st : state)
    (old : raw_operators) :
  objects st !! this = Some old →
  this ≠ rOther →
  modulebound_allocator.copy_ctor T RawAllocation here fresh rOther st
    = (Returns tt,
       with_object st fresh (fetch_raw_operators here (is_array_allocation T RawAllocation)))
  ∧ (∀ ops : raw_operators,
       objects (modulebound_allocator.copy_ctor T RawAllocation here fresh rOther
                  (with_object st rOther ops)).2 !! fresh
       = Some (fetch_raw_operators here (is_array_allocation T RawAllocation)))
  ∧ modulebound_allocator.copy_assign T RawAllocation here this rOther st
    = (Returns this,
       with_object st this (fetch_raw_operators here (is_array_allocation T RawAllocation)))
  ∧ modulebound_allocator.copy_assign T RawAllocation here this this st
    = (Returns this, st).
Proof.
  intros E Hne. repeat split.
  - intros ops. unfold modulebound_allocator.copy_ctor, copy_ctor. run.
    apply lookup_insert_eq.
  - unfold modulebound_allocator.copy_assign. unfold mbind at 1, M_bind.
    by rewrite (base_copy_assign_other _ _ _ _ _ _ old).
  - unfold modulebound_allocator.copy_assign. unfold mbind at 1, M_bind.
    by rewrite base_copy_assign_self.
Qed.

(** The allocator at 1000 was constructed in the executable; copies made
    in the library hold the library's operators. *)
Lemma copy_captures_afresh_witness :
  modulebound_allocator.copy_ctor example.int raw_allocation_single example.dll
      3000 1000 example.st0
    = (Returns tt, with_object example.st0 3000 (200, 202))
  ∧ (∀ ops : raw_operators,
       objects (modulebound_allocator.copy_ctor example.int raw_allocation_single
                  example.dll 3000 1000 (with_object example.st0 1000 ops)).2 !! 3000
       = Some (200, 202))
  ∧ modulebound_allocator.copy_assign example.int raw_allocation_single example.dll
      2000 1000 example.st0
    = (Returns 2000, with_object example.st0 2000 (200, 202))
  ∧ modulebound_allocator.copy_assign example.int raw_allocation_single example.dll
      2000 2000 example.st0
    = (Returns 2000, example.st0).
Proof.
  apply (copy_captures_afresh (H := example.process) example.int raw_allocation_single
           example.dll 3000 2000 1000 example.st0 (200, 202)).
  - reflexivity.
  - discriminate.
Defined.

(** ** Comparison *)

(** C2: for two live allocators, of whatever specializations,
    [a == b] is true exactly when the allocate-functions they captured
    are the same address and the deallocate-functions are. *)
Theorem equal_iff_same_raw_operators `{Runtime} (st : state) (a b : address)
    (pa pb : raw_operators) :
  objects st !! a = Some pa →
  objects st !! b = Some pb →
  ∃ r : bool,
    operator_eq a b st = (Returns r, st) ∧
    (r = true ↔ pa.1 = pb.1 ∧ pa.2 = pb.2).
Proof.
  intros Ea Eb. exists (pair_eq pa pb). split.
  - by apply operator_eq_live.
  - apply pair_eq_spec.
Qed.

Lemma equal_iff_same_raw_operators_witness :
  ∃ r : bool,
    operator_eq 1000 2000 example.st0 = (Returns r, example.st0) ∧
    (r = true ↔ (100, 102).1 = (200, 202).1 ∧ (100, 102).2 = (200, 202).2).
Proof.
  apply (equal_iff_same_raw_operators (H := example.process) example.st0 1000 2000
           (100, 102) (200, 202)); reflexivity.
Defined.

(** C10: for two live allocators, [a != b] returns the negation of what
    [a == b] returns, in the same state: exactly one of the two is true. *)
Theorem unequal_is_not_equal `{Runtime} (st : state) (a b : address)
    (pa pb : raw_operators) :
  objects st !! a = Some pa →
  objects st !! b = Some pb →
  ∃ r : bool,
    operator_eq a b st = (Returns r, st) ∧
    operator_ne a b st = (Returns (negb r), st).
Proof.
  intros Ea Eb. exists (pair_eq pa pb). split.
  - by apply operator_eq_live.
  - by apply operator_ne_live.
Qed.

Lemma unequal_is_not_equal_witness :
  ∃ r : bool,
    operator_eq 1000 2000 example.st0 = (Returns r, example.st0) ∧
    operator_ne 1000 2000 example.st0 = (Returns (negb r), example.st0).
Proof.
  apply (unequal_is_not_equal (H := example.process) example.st0 1000 2000
           (100, 102) (200, 202)); reflexivity.
Defined.

(** ** Moving *)

Section moving.
Context `{Runtime} (tg : target).
Hypothesis move_semantics : 1600 ≤ _MSC_VER tg.

Lemma move_semantics_on : (1600 <=? _MSC_VER tg) = true.
Proof. by apply N.leb_le. Qed.

(** X8: the move constructor stores the source's pair; a source at another
    address keeps its pair. *)
Lemma move_ctor_copies_pair (this rOther : address) (st : state) (ops : raw_operators) :
  objects st !! rOther = Some ops →
  ∃ f, modulebound_allocator.move_ctor tg = Compiled f ∧
       f this rOther st = (Returns tt, with_object st this ops) ∧
       objects (f this rOther st).2 !! rOther = Some ops.
Proof.
  intros E. unfold modulebound_allocator.move_ctor, move_ctor.
  rewrite move_semantics_on. simpl. eexists. split; [reflexivity|].
  run. rewrite E. simpl. split; [done|].
  destruct (decide (this = rOther)) as [->|Hne].
  - apply lookup_insert_eq.
  - by rewrite lookup_insert_ne.
Qed.

(** X9: move assignment stores the source's pair in the target and leaves
    the source as it was; on the object itself it does nothing. *)
Lemma move_assign_copies_pair (this rOther : address) (st : state)
    (old ops : raw_operators) :
  objects st !! this = Some old →
  objects st !! rOther = Some ops →
  ∃ f, modulebound_allocator.move_assign tg = Compiled f ∧
       f this rOther st = (Returns this, with_object st this ops) ∧
       objects (f this rOther st).2 !! rOther = Some ops.
Proof.
  intros Et Eo. unfold modulebound_allocator.move_assign, move_assign.
  rewrite move_semantics_on. simpl. eexists. split; [reflexivity|].
  destruct (decide (this = rOther)) as [->|Hne].
  - rewrite bool_decide_eq_false_2 by (intros E; by apply E).
    run. split; [|done].
    destruct st as [objs s log]. simpl in *.
    by rewrite insert_id.
  - rewrite bool_decide_eq_true_2 by done.
    run. rewrite Eo. simpl. rewrite Et. simpl. split; [done|].
    by rewrite lookup_insert_ne.
Qed.


End moving.

(** C3 fails on the move assignment from another specialization declared
    in [modulebound_allocator]: its body names [Other], which nothing
    declares, so the member is rejected whenever it is instantiated, and
    with [_MSC_VER < 1600] it is not declared at all.  No instantiation
    yields code that could copy a pair. *)
Theorem move_assign_from_is_rejected `{Runtime} (tg : target) (U : type)
    (RawAllocationU : raw_allocation_type) :
  is_rejected (modulebound_allocator.move_assign_from tg U RawAllocationU) = true ∧
  modulebound_allocator.move_assign_from example.msvc10 example.char raw_allocation_single
    = Rejected (undeclared_identifier "Other").
Proof.
  split; [|reflexivity].
  unfold modulebound_allocator.move_assign_from, declared_if.
  by destruct (1600 <=? _MSC_VER tg).
Qed.

(** ** Allocation and deallocation *)

(** C4: [allocate(nCount)] on a live allocator makes one call, through
    the allocate-function it captured, for [sizeof(value_type) * nCount]
    bytes, where [value_type] is [T] without reference and extents and
    the product is the one of [size_t] (the exact product whenever that
    fits in [size_t]); it returns the address the call returned, or
    passes on its [std::bad_alloc].  [allocate(nCount, hint)] does the
    same for every hint. *)
Theorem allocate_calls_captured_function `{Runtime} (tg : target) (T : type)
    (f : address → N → M address) (this : address) (nCount : N) (st : state)
    (ops : raw_operators) :
  modulebound_allocator.allocate tg T = Compiled f →
  objects st !! this = Some ops →
  ∃ size bytes : N,
    sizeof (remove_all_extents (remove_reference T)) = Some size ∧
    bytes = size_t_mul tg size nCount ∧
    (size * nCount < 2 ^ size_t_bits tg → bytes = size * nCount) ∧
    f this nCount st
      = (allocation_result ops.1 bytes st,
         mk_state (objects st)
                  (invoke_allocate ops.1 bytes (store st)).2
                  (calls st ++ [call_allocate ops.1 bytes])) ∧
    ∃ g, modulebound_allocator.allocate_hint tg T = Compiled g ∧
         ∀ hint : address, g this nCount hint st = f this nCount st.
Proof.
  intros Ef E. destruct (allocate_compiled tg T f Ef) as (size & Es & ->).
  exists size, (size_t_mul tg size nCount). repeat split.
  - exact Es.
  - apply size_t_mul_exact.
  - run. rewrite E. simpl. unfold allocation_result.
    by destruct (invoke_allocate _ _ _) as [[p|] s].
  - unfold modulebound_allocator.allocate_hint. rewrite Ef. simpl.
    eexists. split; [reflexivity|]. done.
Qed.

(** Four doubles through the allocator at 1000: one call of the
    executable's [operator new] for 32 bytes. *)
Lemma allocate_calls_captured_function_witness :
  ∃ f, modulebound_allocator.allocate (H := example.process) example.gcc64 example.double
       = Compiled f ∧
  ∃ size bytes : N,
    sizeof (remove_all_extents (remove_reference example.double)) = Some size ∧
    bytes = size_t_mul example.gcc64 size 4 ∧
    (size * 4 < 2 ^ size_t_bits example.gcc64 → bytes = size * 4) ∧
    f 1000 4 example.st0
      = (allocation_result (100, 102).1 bytes example.st0,
         mk_state (objects example.st0)
                  (invoke_allocate (100, 102).1 bytes (store example.st0)).2
                  (calls example.st0 ++ [call_allocate (100, 102).1 bytes])) ∧
    ∃ g, modulebound_allocator.allocate_hint example.gcc64 example.double = Compiled g ∧
         ∀ hint : address, g 1000 4 hint example.st0 = f 1000 4 example.st0.
Proof.
  eexists. split; [reflexivity|].
  apply (allocate_calls_captured_function (H := example.process) example.gcc64
           example.double _ 1000 4 example.st0 (100, 102)); reflexivity.
Defined.

(** C5: [deallocate(p, nCount)] on a live allocator makes one call,
    through the deallocate-function it captured, with [p] alone:
    [nCount] does not occur in what happens.  With a null [p] the call
    is made with null, the member returns normally, and the free store
    is as before when the captured function accepts null. *)
Theorem deallocate_calls_captured_function `{Runtime} (T : type)
    (f : address → address → N → M unit) (this p : address) (nCount : N)
    (st : state) (ops : raw_operators) :
  modulebound_allocator.deallocate T = Compiled f →
  objects st !! this = Some ops →
  f this p nCount st
    = (Returns tt,
       mk_state (objects st)
                (invoke_deallocate ops.2 p (store st))
                (calls st ++ [call_deallocate ops.2 p]))
  ∧ (accepts_null ops.2 →
     f this null nCount st
       = (Returns tt,
          mk_state (objects st) (store st) (calls st ++ [call_deallocate ops.2 null]))).
Proof.
  intros Ef E. rewrite (deallocate_compiled T f Ef). split.
  - run. by rewrite E.
  - intros Hnull. run. rewrite E. simpl. by rewrite Hnull.
Qed.

Lemma example_accepts_null (f : fp_raw_deallocate_t) :
  accepts_null (H := example.process) f.
Proof. intros s. reflexivity. Defined.

Lemma deallocate_calls_captured_function_witness :
  ∃ f, modulebound_allocator.deallocate (H := example.process) example.int = Compiled f ∧
    f 1000 4112 7 example.st0
      = (Returns tt,
         mk_state (objects example.st0)
                  (invoke_deallocate (100, 102).2 4112 (store example.st0))
                  (calls example.st0 ++ [call_deallocate (100, 102).2 4112]))
    ∧ f 1000 null 4 example.st0
      = (Returns tt,
         mk_state (objects example.st0) (store example.st0)
                  (calls example.st0 ++ [call_deallocate (100, 102).2 null])).
Proof.
  eexists. split; [reflexivity|].
  pose proof (deallocate_calls_captured_function (H := example.process) example.int
                _ 1000 4112 7 example.st0 (100, 102) eq_refl eq_refl) as [H1 _].
  pose proof (deallocate_calls_captured_function (H := example.process) example.int
                _ 1000 null 4 example.st0 (100, 102) eq_refl eq_refl) as [_ H2].
  split; [exact H1 | exact (H2 (example_accepts_null _))].
Defined.

(** ** Specializations of different kinds *)

Lemma static_assert_fails {A} (b c : bool) (body : A) :
  b ≠ c → static_assert (Bool.eqb b c) body = Rejected static_assertion_failed.
Proof. intros Hne. unfold static_assert. by destruct b, c. Qed.

(** C7: when the resolved kinds of [modulebound_allocator<T, RawAllocation>]
    and [modulebound_allocator<U, RawAllocationU>] differ, none of the
    copy or move constructors and assignment operators between the two
    can be instantiated, in any configuration; in the base class the
    diagnostic is the failed static assertion wherever the member is
    declared and the operands of its assertion are.  No run starts, so
    the mismatch is never met at run time. *)
Theorem kind_mismatch_is_rejected `{Runtime} (tg : target) (T U : type)
    (RawAllocation RawAllocationU : raw_allocation_type) :
  is_array_allocation T RawAllocation ≠ is_array_allocation U RawAllocationU →
  (is_rejected (modulebound_allocator.copy_ctor_from tg T RawAllocation U RawAllocationU) = true ∧
   is_rejected (modulebound_allocator.copy_assign_from T RawAllocation U RawAllocationU) = true ∧
   is_rejected (modulebound_allocator.move_ctor_from tg T RawAllocation U RawAllocationU) = true ∧
   is_rejected (modulebound_allocator.move_assign_from tg U RawAllocationU) = true)
  ∧ modulebound_allocator_base.copy_assign_from T RawAllocation U RawAllocationU
    = Rejected static_assertion_failed
  ∧ (_MSC_VER tg < 1600 →
     modulebound_allocator_base.copy_ctor_from tg T RawAllocation U RawAllocationU
     = Rejected static_assertion_failed)
  ∧ (1600 ≤ _MSC_VER tg →
     modulebound_allocator_base.move_ctor_from tg T RawAllocation U RawAllocationU
     = Rejected static_assertion_failed
     ∧ modulebound_allocator_base.move_assign_from tg T RawAllocation U RawAllocationU
       = Rejected static_assertion_failed).
Proof.
  intros Hne.
  unfold modulebound_allocator.copy_ctor_from, modulebound_allocator.copy_assign_from,
    modulebound_allocator.move_ctor_from, modulebound_allocator.move_assign_from,
    copy_ctor_from, copy_assign_from, move_ctor_from, move_assign_from, declared_if.
  rewrite !static_assert_fails by done.
  split; [|split; [reflexivity|split]].
  - by destruct (1600 <=? _MSC_VER tg).
  - intros Hlt. apply N.leb_gt in Hlt. by rewrite Hlt.
  - intros Hge. apply N.leb_le in Hge. by rewrite Hge.
Qed.

(** An allocator for [char[]] under Deduced is an array allocator, one
    for [char] is not. *)
Lemma kind_mismatch_is_rejected_witness :
  (is_rejected (modulebound_allocator.copy_ctor_from (H := example.process) example.gcc64
      example.char raw_allocation_deduce example.char_array raw_allocation_deduce) = true ∧
   is_rejected (modulebound_allocator.copy_assign_from (H := example.process)
      example.char raw_allocation_deduce example.char_array raw_allocation_deduce) = true ∧
   is_rejected (modulebound_allocator.move_ctor_from (H := example.process) example.gcc64
      example.char raw_allocation_deduce example.char_array raw_allocation_deduce) = true ∧
   is_rejected (modulebound_allocator.move_assign_from (H := example.process) example.gcc64
      example.char_array raw_allocation_deduce) = true)
  ∧ modulebound_allocator_base.copy_assign_from (H := example.process)
      example.char raw_allocation_deduce example.char_array raw_allocation_deduce
    = Rejected static_assertion_failed
  ∧ modulebound_allocator_base.copy_ctor_from (H := example.process) example.gcc64
      example.char raw_allocation_deduce example.char_array raw_allocation_deduce
    = Rejected static_assertion_failed.
Proof.
  assert (is_array_allocation example.char raw_allocation_deduce
          ≠ is_array_allocation example.char_array raw_allocation_deduce) as Hne
    by (intros E; vm_compute in E; discriminate E).
  destruct (kind_mismatch_is_rejected (H := example.process) example.gcc64
              example.char example.char_array raw_allocation_deduce raw_allocation_deduce
              Hne) as (Hall & Hassign & Hctor & _).
  exact (conj Hall (conj Hassign (Hctor eq_refl))).
Defined.

(** ** What the members leave alone *)

(** C9: [allocate], in both forms, [deallocate] and [get_raw_operators]
    leave the stored pair of every allocator object as it was;
    [get_raw_operators] changes nothing at all. *)
Theorem members_keep_raw_operators `{Runtime} (tg : target) (T : type)
    (f : address → N → M address) (g : address → N → address → M address)
    (d : address → address → N → M unit)
    (this p hint : address) (nCount : N) (st : state) :
  modulebound_allocator.allocate tg T = Compiled f →
  modulebound_allocator.allocate_hint tg T = Compiled g →
  modulebound_allocator.deallocate T = Compiled d →
  objects (f this nCount st).2 = objects st ∧
  objects (g this nCount hint st).2 = objects st ∧
  objects (d this p nCount st).2 = objects st ∧
  (get_raw_operators this st).2 = st.
Proof.
  intros Ef Eg Ed.
  unfold modulebound_allocator.allocate_hint in Eg. rewrite Ef in Eg.
  injection Eg as <-.
  destruct (allocate_compiled tg T f Ef) as (size & _ & ->).
  rewrite (deallocate_compiled T d Ed).
  run. destruct (objects st !! this) as [ops|]; simpl.
  - destruct (invoke_allocate _ _ _) as [[q|] s]; done.
  - done.
Qed.

Lemma members_keep_raw_operators_witness :
  ∃ f g d,
    modulebound_allocator.allocate (H := example.process) example.msvc10 example.int_3
      = Compiled f ∧
    modulebound_allocator.allocate_hint example.msvc10 example.int_3 = Compiled g ∧
    modulebound_allocator.deallocate example.int_3 = Compiled d ∧
    objects (f 2000 5 example.st0).2 = objects example.st0 ∧
    objects (g 2000 5 0 example.st0).2 = objects example.st0 ∧
    objects (d 2000 4096 5 example.st0).2 = objects example.st0 ∧
    (get_raw_operators 2000 example.st0).2 = example.st0.
Proof.
  do 3 eexists. do 3 (split; [reflexivity|]).
  exact (members_keep_raw_operators (H := example.process) example.msvc10 example.int_3
           _ _ _ 2000 4096 0 5 example.st0 eq_refl eq_refl eq_refl).
Defined.

(** ** Further properties of the headers *)

Lemma pair_eq_refl (x : raw_operators) : pair_eq x x = true.
Proof. by apply pair_eq_spec. Qed.

Lemma pair_eq_true (x y : raw_operators) : pair_eq x y = true → x = y.
Proof. destruct x, y. intros [E1 E2]%pair_eq_spec. simpl in *. by subst. Qed.

Lemma pair_eq_false (x y : raw_operators) : x.1 ≠ y.1 → pair_eq x y = false.
Proof.
  intros Hne. destruct (pair_eq x y) eqn:E; [|done].
  apply pair_eq_spec in E as [E _]. done.
Qed.

Lemma fetch_raw_operators_kind (here : module_operators) (k1 k2 : bool) :
  operator_new here ≠ operator_new_array here →
  pair_eq (fetch_raw_operators here k1) (fetch_raw_operators here k2) = Bool.eqb k1 k2.
Proof.
  intros Hne. destruct k1, k2; simpl; try apply pair_eq_refl;
    apply pair_eq_false; simpl; congruence.
Qed.

Lemma with_object_same `{Runtime} (st : state) (a : address) (ops : raw_operators) :
  objects st !! a = Some ops → with_object st a ops = st.
Proof. intros E. destruct st as [objs s log]. unfold with_object. simpl in *. by rewrite insert_id. Qed.

(** *** Construction and comparison *)

(** X1: two allocators default-constructed in one module, for
    specializations of the same resolved kind, compare equal. *)
Theorem default_constructed_in_one_module_equal `{Runtime}
    (T U : type) (RawAllocation RawAllocationU : raw_allocation_type)
    (here : module_operators) (a b : address) (st : state) :
  a ≠ b →
  is_array_allocation T RawAllocation = is_array_allocation U RawAllocationU →
  operator_eq a b
    (modulebound_allocator.ctor U RawAllocationU here b
       (modulebound_allocator.ctor T RawAllocation here a st).2).2
  = (Returns true,
     (modulebound_allocator.ctor U RawAllocationU here b
        (modulebound_allocator.ctor T RawAllocation here a st).2).2).
Proof.
  intros Hne Ek. unfold modulebound_allocator.ctor, ctor. run.
  rewrite <- (pair_eq_refl (fetch_raw_operators here (is_array_allocation T RawAllocation))).
  apply operator_eq_live; simpl.
  - rewrite lookup_insert_ne by done. apply lookup_insert_eq.
  - rewrite <- Ek. apply lookup_insert_eq.
Qed.

Lemma default_constructed_in_one_module_equal_witness :
  operator_eq 3000 4000
    (modulebound_allocator.ctor example.double raw_allocation_single example.dll 4000
       (modulebound_allocator.ctor example.int raw_allocation_deduce example.dll 3000
          example.st0).2).2
  = (Returns true,
     (modulebound_allocator.ctor example.double raw_allocation_single example.dll 4000
        (modulebound_allocator.ctor example.int raw_allocation_deduce example.dll 3000
           example.st0).2).2).
Proof.
  apply (default_constructed_in_one_module_equal (H := example.process)
           example.int example.double raw_allocation_deduce raw_allocation_single
           example.dll 3000 4000 example.st0).
  - discriminate.
  - reflexivity.
Defined.

(** X2: in a module whose [operator new] and [operator new[]] are
    different functions, two default-constructed allocators compare
    equal exactly when their resolved kinds agree. *)
Theorem default_constructed_equal_iff_same_kind `{Runtime}
    (T U : type) (RawAllocation RawAllocationU : raw_allocation_type)
    (here : module_operators) (a b : address) (st : state) :
  a ≠ b →
  operator_new here ≠ operator_new_array here →
  ∃ r : bool,
    operator_eq a b
      (modulebound_allocator.ctor U RawAllocationU here b
         (modulebound_allocator.ctor T RawAllocation here a st).2).2
    = (Returns r,
       (modulebound_allocator.ctor U RawAllocationU here b
          (modulebound_allocator.ctor T RawAllocation here a st).2).2)
    ∧ (r = true ↔
       is_array_allocation T RawAllocation = is_array_allocation U RawAllocationU).
Proof.
  intros Hne Hops.
  exists (Bool.eqb (is_array_allocation T RawAllocation)
                   (is_array_allocation U RawAllocationU)).
  split.
  - unfold modulebound_allocator.ctor, ctor. run.
    rewrite <- (fetch_raw_operators_kind here) by done.
    apply operator_eq_live; simpl.
    + rewrite lookup_insert_ne by done. apply lookup_insert_eq.
    + apply lookup_insert_eq.
  - apply eqb_true_iff.
Qed.

Lemma default_constructed_equal_iff_same_kind_witness :
  ∃ r : bool,
    operator_eq 3000 4000
      (modulebound_allocator.ctor example.char_array raw_allocation_deduce example.exe 4000
         (modulebound_allocator.ctor example.char raw_allocation_deduce example.exe 3000
            example.st0).2).2
    = (Returns r,
       (modulebound_allocator.ctor example.char_array raw_allocation_deduce example.exe 4000
          (modulebound_allocator.ctor example.char raw_allocation_deduce example.exe 3000
             example.st0).2).2)
    ∧ (r = true ↔
       is_array_allocation example.char raw_allocation_deduce
       = is_array_allocation example.char_array raw_allocation_deduce).
Proof.
  apply (default_constructed_equal_iff_same_kind (H := example.process)
           example.char example.char_array raw_allocation_deduce raw_allocation_deduce
           example.exe 3000 4000 example.st0); discriminate.
Defined.

(** X3: a copy compares equal to its source exactly when the source
    holds the operators of the module the copy is made in, of the
    copy's kind. *)
Theorem copy_equals_source_iff_source_is_local `{Runtime}
    (T : type) (RawAllocation : raw_allocation_type) (here : module_operators)
    (fresh rOther : address) (st : state) (ops : raw_operators) :
  fresh ≠ rOther →
  objects st !! rOther = Some ops →
  ∃ r : bool,
    operator_eq fresh rOther
      (modulebound_allocator.copy_ctor T RawAllocation here fresh rOther st).2
    = (Returns r, (modulebound_allocator.copy_ctor T RawAllocation here fresh rOther st).2)
    ∧ (r = true ↔
       ops = fetch_raw_operators here (is_array_allocation T RawAllocation)).
Proof.
  intros Hne E.
  exists (pair_eq (fetch_raw_operators here (is_array_allocation T RawAllocation)) ops).
  split.
  - unfold modulebound_allocator.copy_ctor, copy_ctor. run.
    apply operator_eq_live; simpl.
    + apply lookup_insert_eq.
    + by rewrite lookup_insert_ne.
  - split.
    + intros Er. symmetry. by apply pair_eq_true.
    + intros ->. apply pair_eq_refl.
Qed.

Lemma copy_equals_source_iff_source_is_local_witness :
  ∃ r : bool,
    operator_eq 3000 1000
      (modulebound_allocator.copy_ctor example.int raw_allocation_single example.dll
         3000 1000 example.st0).2
    = (Returns r,
       (modulebound_allocator.copy_ctor example.int raw_allocation_single example.dll
          3000 1000 example.st0).2)
    ∧ (r = true ↔
       (100, 102) = fetch_raw_operators example.dll
                      (is_array_allocation example.int raw_allocation_single)).
Proof.
  apply (copy_equals_source_iff_source_is_local (H := example.process)
           example.int raw_allocation_single example.dll 3000 1000 example.st0 (100, 102)).
  - discriminate.
  - reflexivity.
Defined.

(** *** Copy assignment and what construction and assignment leave alone *)

(** X4: copy assignment to an allocator that already holds the
    operators of the module the assignment is compiled in, of its own
    kind, leaves the whole state as it was, whatever the source. *)
Theorem copy_assign_at_home_changes_nothing `{Runtime}
    (T : type) (RawAllocation : raw_allocation_type) (here : module_operators)
    (this rOther : address) (st : state) :
  objects st !! this
    = Some (fetch_raw_operators here (is_array_allocation T RawAllocation)) →
  modulebound_allocator.copy_assign T RawAllocation here this rOther st
  = (Returns this, st).
Proof.
  intros E. unfold modulebound_allocator.copy_assign. unfold mbind at 1, M_bind.
  destruct (decide (this = rOther)) as [<-|Hne].
  - by rewrite base_copy_assign_self.
  - rewrite (base_copy_assign_other _ _ _ _ _ _ _ E Hne).
    by rewrite with_object_same.
Qed.

Lemma copy_assign_at_home_changes_nothing_witness :
  modulebound_allocator.copy_assign example.int raw_allocation_single example.exe
    1000 2000 example.st0
  = (Returns 1000, example.st0).
Proof.
  apply (copy_assign_at_home_changes_nothing (H := example.process)
           example.int raw_allocation_single example.exe 1000 2000 example.st0).
  reflexivity.
Defined.

(** X5: the default constructor, the copy constructor and copy
    assignment change no allocator object but their own, in particular
    not the source, and make no call through a raw function pointer:
    the free store and the call log are as before. *)
Theorem copying_touches_only_the_target `{Runtime}
    (T : type) (RawAllocation : raw_allocation_type) (here : module_operators)
    (this rOther other : address) (st : state) :
  other ≠ this →
  (objects (modulebound_allocator.ctor T RawAllocation here this st).2 !! other
     = objects st !! other
   ∧ store (modulebound_allocator.ctor T RawAllocation here this st).2 = store st
   ∧ calls (modulebound_allocator.ctor T RawAllocation here this st).2 = calls st)
  ∧ (objects (modulebound_allocator.copy_ctor T RawAllocation here this rOther st).2 !! other
       = objects st !! other
     ∧ store (modulebound_allocator.copy_ctor T RawAllocation here this rOther st).2 = store st
     ∧ calls (modulebound_allocator.copy_ctor T RawAllocation here this rOther st).2 = calls st)
  ∧ (objects (modulebound_allocator.copy_assign T RawAllocation here this rOther st).2 !! other
       = objects st !! other
     ∧ store (modulebound_allocator.copy_assign T RawAllocation here this rOther st).2 = store st
     ∧ calls (modulebound_allocator.copy_assign T RawAllocation here this rOther st).2 = calls st).
Proof.
  intros Hne.
  unfold modulebound_allocator.ctor, modulebound_allocator.copy_ctor,
    modulebound_allocator.copy_assign, ctor, copy_ctor, copy_assign.
  split; [|split].
  - run. by rewrite lookup_insert_ne.
  - run. by rewrite lookup_insert_ne.
  - destruct (bool_decide (this ≠ rOther)); run; [|done].
    destruct (objects st !! this); simpl; [|done].
    by rewrite lookup_insert_ne.
Qed.

Lemma copying_touches_only_the_target_witness :
  (objects (modulebound_allocator.ctor example.int raw_allocation_single example.dll
              3000 example.st0).2 !! 1000
     = objects example.st0 !! 1000
   ∧ store (modulebound_allocator.ctor example.int raw_allocation_single example.dll
              3000 example.st0).2 = store example.st0
   ∧ calls (modulebound_allocator.ctor example.int raw_allocation_single example.dll
              3000 example.st0).2 = calls example.st0)
  ∧ (objects (modulebound_allocator.copy_ctor example.int raw_allocation_single example.dll
                3000 1000 example.st0).2 !! 1000
       = objects example.st0 !! 1000
     ∧ store (modulebound_allocator.copy_ctor example.int raw_allocation_single example.dll
                3000 1000 example.st0).2 = store example.st0
     ∧ calls (modulebound_allocator.copy_ctor example.int raw_allocation_single example.dll
                3000 1000 example.st0).2 = calls example.st0)
  ∧ (objects (modulebound_allocator.copy_assign example.int raw_allocation_single example.dll
                3000 1000 example.st0).2 !! 1000
       = objects example.st0 !! 1000
     ∧ store (modulebound_allocator.copy_assign example.int raw_allocation_single example.dll
                3000 1000 example.st0).2 = store example.st0
     ∧ calls (modulebound_allocator.copy_assign example.int raw_allocation_single example.dll
                3000 1000 example.st0).2 = calls example.st0).
Proof.
  apply (copying_touches_only_the_target (H := example.process)
           example.int raw_allocation_single example.dll 3000 1000 1000 example.st0).
  discriminate.
Defined.

(** *** Members between different specializations *)


Lemma static_assert_compiles {A} (b c : bool) (body : A) :
  is_rejected (static_assert (Bool.eqb b c) body) = false ↔ b = c.
Proof. unfold static_assert. destruct b, c; simpl; split; congruence. Qed.




(** *** Moving, with [_MSC_VER >= 1600] *)

(** The library's allocator, at 2000, moved into a new object at 3000. *)
Lemma move_ctor_copies_pair_witness :
  ∃ f, modulebound_allocator.move_ctor (H := example.process) example.msvc10 = Compiled f ∧
       f 3000 2000 example.st0 = (Returns tt, with_object example.st0 3000 (200, 202)) ∧
       objects (f 3000 2000 example.st0).2 !! 2000 = Some (200, 202).
Proof.
  exact (move_ctor_copies_pair (H := example.process) example.msvc10 (N.le_refl 1600)
           3000 2000 example.st0 (200, 202) eq_refl).
Defined.

(** The library's allocator move-assigned to the executable's. *)
Lemma move_assign_copies_pair_witness :
  ∃ f, modulebound_allocator.move_assign (H := example.process) example.msvc10 = Compiled f ∧
       f 1000 2000 example.st0 = (Returns 1000, with_object example.st0 1000 (200, 202)) ∧
       objects (f 1000 2000 example.st0).2 !! 2000 = Some (200, 202).
Proof.
  exact (move_assign_copies_pair (H := example.process) example.msvc10 (N.le_refl 1600)
           1000 2000 example.st0 (100, 102) (200, 202) eq_refl eq_refl).
Defined.


(** X11: an allocator that was move-constructed or move-assigned
    compares equal to its source afterwards, in whatever module the
    move is compiled. *)
Theorem moved_allocator_equals_source `{Runtime} (tg : target)
    (fresh this rOther : address) (st : state) (old ops : raw_operators) :
  1600 ≤ _MSC_VER tg →
  objects st !! this = Some old →
  objects st !! rOther = Some ops →
  (∃ f, modulebound_allocator.move_ctor tg = Compiled f ∧
        operator_eq fresh rOther (f fresh rOther st).2
        = (Returns true, (f fresh rOther st).2))
  ∧ (∃ g, modulebound_allocator.move_assign tg = Compiled g ∧
          operator_eq this rOther (g this rOther st).2
          = (Returns true, (g this rOther st).2)).
Proof.
  intros Hge%N.leb_le Et Eo.
  unfold modulebound_allocator.move_ctor, modulebound_allocator.move_assign,
    move_ctor, move_assign.
  rewrite Hge. simpl. split; (eexists; split; [reflexivity|]).
  - run. rewrite Eo. simpl. rewrite <- (pair_eq_refl ops).
    apply operator_eq_live; simpl.
    + apply lookup_insert_eq.
    + destruct (decide (fresh = rOther)) as [->|Hne].
      * apply lookup_insert_eq.
      * by rewrite lookup_insert_ne.
  - destruct (decide (this = rOther)) as [->|Hne].
    + rewrite bool_decide_eq_false_2 by (intros Hn; by apply Hn). run.
      rewrite <- (pair_eq_refl ops). by apply operator_eq_live.
    + rewrite bool_decide_eq_true_2 by done. run. rewrite Eo. simpl. rewrite Et. simpl.
      rewrite <- (pair_eq_refl ops).
      apply operator_eq_live; simpl.
      * apply lookup_insert_eq.
      * by rewrite lookup_insert_ne.
Qed.

Lemma moved_allocator_equals_source_witness :
  (∃ f, modulebound_allocator.move_ctor (H := example.process) example.msvc10 = Compiled f ∧
        operator_eq 3000 2000 (f 3000 2000 example.st0).2
        = (Returns true, (f 3000 2000 example.st0).2))
  ∧ (∃ g, modulebound_allocator.move_assign (H := example.process) example.msvc10 = Compiled g ∧
          operator_eq 1000 2000 (g 1000 2000 example.st0).2
          = (Returns true, (g 1000 2000 example.st0).2)).
Proof.
  exact (moved_allocator_equals_source (H := example.process) example.msvc10
           3000 1000 2000 example.st0 (100, 102) (200, 202)
           (N.le_refl 1600) eq_refl eq_refl).
Defined.

(** *** Which element types can be allocated *)



(** *** Allocation followed by deallocation *)

(** X13: when the raw allocation succeeds with [p], [allocate] returns
    [p], and releasing [p] through the same allocator calls the
    deallocate-function of the very pair whose allocate-function
    produced it: the two calls are the only ones added to the log, and
    no allocator object changes. *)
Theorem allocate_then_deallocate `{Runtime} (tg : target) (T : type)
    (f : address → N → M address) (d : address → address → N → M unit)
    (this p : address) (nCount size : N) (st : state) (ops : raw_operators)
    (s' : free_store) :
  modulebound_allocator.allocate tg T = Compiled f →
  modulebound_allocator.deallocate T = Compiled d →
  sizeof (modulebound_allocator.value_type T) = Some size →
  objects st !! this = Some ops →
  invoke_allocate ops.1 (size_t_mul tg size nCount) (store st) = (Some p, s') →
  (f this nCount st).1 = Returns p ∧
  d this p nCount (f this nCount st).2
  = (Returns tt,
     mk_state (objects st)
              (invoke_deallocate ops.2 p s')
              (calls st ++ [call_allocate ops.1 (size_t_mul tg size nCount);
                            call_deallocate ops.2 p])).
Proof.
  intros Ef Ed Es E Ea.
  destruct (allocate_compiled tg T f Ef) as (size' & Es' & ->).
  rewrite (deallocate_compiled T d Ed).
  unfold modulebound_allocator.value_type in Es.
  assert (size' = size) as -> by congruence.
  run. rewrite E. simpl. rewrite Ea. simpl. rewrite E. simpl.
  by rewrite <- app_assoc.
Qed.

Lemma allocate_then_deallocate_witness :
  ∃ f d,
    modulebound_allocator.allocate (H := example.process) example.gcc64 example.double
      = Compiled f ∧
    modulebound_allocator.deallocate example.double = Compiled d ∧
    (f 2000 4 example.st0).1 = Returns 4096 ∧
    d 2000 4096 4 (f 2000 4 example.st0).2
    = (Returns tt,
       @mk_state example.process (objects example.st0)
                (@invoke_deallocate example.process (200, 202).2 4096 (4144, [4096]))
                (calls example.st0 ++ [call_allocate (200, 202).1
                                         (size_t_mul example.gcc64 8 4);
                                       call_deallocate (200, 202).2 4096])).
Proof.
  do 2 eexists. do 2 (split; [reflexivity|]).
  exact (allocate_then_deallocate (H := example.process) example.gcc64 example.double
           _ _ 2000 4096 4 8 example.st0 (200, 202) ((4144, [4096]) : N * list N)
           eq_refl eq_refl eq_refl eq_refl eq_refl).
Defined.

(** X14: when [a == b] returns true, [allocate] and [deallocate]
    through [a] and through [b] do the same, in every state that holds
    the same allocator objects: storage obtained through one can be
    released through the other by the function that matches. *)
Theorem equal_allocators_are_interchangeable `{Runtime} (tg : target) (T : type)
    (f : address → N → M address) (d : address → address → N → M unit)
    (a b p : address) (nCount : N) (st st' : state) :
  operator_eq a b st = (Returns true, st) →
  modulebound_allocator.allocate tg T = Compiled f →
  modulebound_allocator.deallocate T = Compiled d →
  objects st' = objects st →
  f a nCount st' = f b nCount st' ∧ d a p nCount st' = d b p nCount st'.
Proof.
  intros Eeq Ef Ed Eobj.
  destruct (allocate_compiled tg T f Ef) as (size & _ & ->).
  rewrite (deallocate_compiled T d Ed).
  unfold operator_eq in Eeq. revert Eeq. run.
  rewrite Eobj.
  destruct (objects st !! a) as [pa|]; simpl; [|discriminate].
  destruct (objects st !! b) as [pb|]; simpl; [|discriminate].
  intros [= Ep%pair_eq_true]. by subst.
Qed.

Lemma equal_allocators_are_interchangeable_witness :
  ∃ f d,
    modulebound_allocator.allocate (H := example.process) example.gcc64 example.int
      = Compiled f ∧
    modulebound_allocator.deallocate example.int = Compiled d ∧
    f 1000 3 (with_object example.st0 2000 (100, 102))
      = f 2000 3 (with_object example.st0 2000 (100, 102)) ∧
    d 1000 4096 3 (with_object example.st0 2000 (100, 102))
      = d 2000 4096 3 (with_object example.st0 2000 (100, 102)).
Proof.
  do 2 eexists. do 2 (split; [reflexivity|]).
  exact (equal_allocators_are_interchangeable (H := example.process) example.gcc64
           example.int _ _ 1000 2000 4096 3
           (with_object example.st0 2000 (100, 102))
           (with_object example.st0 2000 (100, 102))
           eq_refl eq_refl eq_refl eq_refl).
Defined.

(** *** Equality as a relation *)

Lemma pair_eq_sym (x y : raw_operators) : pair_eq x y = pair_eq y x.
Proof. unfold pair_eq. by rewrite (N.eqb_sym x.1), (N.eqb_sym x.2). Qed.

(** X15: on live allocators [==] is reflexive, gives the same answer
    with its operands exchanged, and is transitive. *)
Theorem equality_is_an_equivalence `{Runtime} (st : state) (a b c : address)
    (pa pb pc : raw_operators) :
  objects st !! a = Some pa →
  objects st !! b = Some pb →
  objects st !! c = Some pc →
  operator_eq a a st = (Returns true, st)
  ∧ operator_eq a b st = operator_eq b a st
  ∧ (operator_eq a b st = (Returns true, st) →
     operator_eq b c st = (Returns true, st) →
     operator_eq a c st = (Returns true, st)).
Proof.
  intros Ea Eb Ec.
  rewrite (operator_eq_live st a a pa pa), (operator_eq_live st a b pa pb),
    (operator_eq_live st b a pb pa), (operator_eq_live st b c pb pc),
    (operator_eq_live st a c pa pc) by done.
  split; [by rewrite pair_eq_refl|]. split; [by rewrite pair_eq_sym|].
  intros [= ->%pair_eq_true] [= ->%pair_eq_true]. by rewrite pair_eq_refl.
Qed.

Lemma equality_is_an_equivalence_witness :
  operator_eq 1000 1000 example.st0 = (Returns true, example.st0)
  ∧ operator_eq 1000 2000 example.st0 = operator_eq 2000 1000 example.st0
  ∧ (operator_eq 1000 2000 example.st0 = (Returns true, example.st0) →
     operator_eq 2000 1000 example.st0 = (Returns true, example.st0) →
     operator_eq 1000 1000 example.st0 = (Returns true, example.st0)).
Proof.
  exact (equality_is_an_equivalence (H := example.process) example.st0 1000 2000 1000
           (100, 102) (200, 202) (100, 102) eq_refl eq_refl eq_refl).
Defined.

(** *** Bound to the constructing module *)

(** X16: an allocator default-constructed in a module sends every
    [allocate] to that module's [operator new[]] when its resolved kind
    is Array and to its [operator new] otherwise, and every
    [deallocate] to the matching [operator delete[]] or
    [operator delete]. *)
Theorem bound_to_constructing_module `{Runtime} (tg : target) (T : type)
    (RawAllocation : raw_allocation_type) (here : module_operators)
    (f : address → N → M address) (d : address → address → N → M unit)
    (this p : address) (nCount size : N) (st : state) :
  modulebound_allocator.allocate tg T = Compiled f →
  modulebound_allocator.deallocate T = Compiled d →
  sizeof (modulebound_allocator.value_type T) = Some size →
  calls (f this nCount (modulebound_allocator.ctor T RawAllocation here this st).2).2
    = calls st ++
      [call_allocate
         (if is_array_allocation T RawAllocation
          then operator_new_array here else operator_new here)
         (size_t_mul tg size nCount)]
  ∧ calls (d this p nCount (modulebound_allocator.ctor T RawAllocation here this st).2).2
    = calls st ++
      [call_deallocate
         (if is_array_allocation T RawAllocation
          then operator_delete_array here else operator_delete here)
         p].
Proof.
  intros Ef Ed Es.
  destruct (allocate_compiled tg T f Ef) as (size' & Es' & ->).
  rewrite (deallocate_compiled T d Ed).
  unfold modulebound_allocator.value_type in Es.
  assert (size' = size) as -> by congruence.
  unfold modulebound_allocator.ctor, ctor. run.
  rewrite lookup_insert_eq. simpl. split; [|done].
  by destruct (invoke_allocate _ _ _) as [[q|] s].
Qed.

Lemma bound_to_constructing_module_witness :
  ∃ f d,
    modulebound_allocator.allocate (H := example.process) example.gcc64 example.char_array
      = Compiled f ∧
    modulebound_allocator.deallocate example.char_array = Compiled d ∧
    calls (f 3000 10 (modulebound_allocator.ctor example.char_array raw_allocation_deduce
                        example.dll 3000 example.st0).2).2
      = calls example.st0 ++
        [call_allocate
           (if is_array_allocation example.char_array raw_allocation_deduce
            then operator_new_array example.dll else operator_new example.dll)
           (size_t_mul example.gcc64 1 10)]
    ∧ calls (d 3000 4096 10 (modulebound_allocator.ctor example.char_array
                               raw_allocation_deduce example.dll 3000 example.st0).2).2
      = calls example.st0 ++
        [call_deallocate
           (if is_array_allocation example.char_array raw_allocation_deduce
            then operator_delete_array example.dll else operator_delete example.dll)
           4096].
Proof.
  do 2 eexists. do 2 (split; [reflexivity|]).
  exact (bound_to_constructing_module (H := example.process) example.gcc64
           example.char_array raw_allocation_deduce example.dll _ _ 3000 4096 10 1
           example.st0 eq_refl eq_refl eq_refl).
Defined.

(** *** The default policy and the stripped element type *)

(** X17: the default argument for the policy is never Deduced: it pins
    the kind that [T] has, Array iff [T] is an array type, and every
    allocator obtained from it by [rebind], once or twice, has that
    same kind whatever the types it is rebound to. *)
Theorem default_policy_pins_the_kind (T U V : type) :
  (default_RawAllocation T = raw_allocation_array
   ∨ default_RawAllocation T = raw_allocation_single)
  ∧ is_array_allocation T (default_RawAllocation T) = is_array T
  ∧ is_array_allocation (rebind T (default_RawAllocation T) U).1
                        (rebind T (default_RawAllocation T) U).2
    = is_array T
  ∧ is_array_allocation
      (rebind (rebind T (default_RawAllocation T) U).1
              (rebind T (default_RawAllocation T) U).2 V).1
      (rebind (rebind T (default_RawAllocation T) U).1
              (rebind T (default_RawAllocation T) U).2 V).2
    = is_array T.
Proof.
  unfold default_RawAllocation, rebind. simpl.
  destruct (is_array T); repeat split; auto.
Qed.

Lemma strip_extents_plain (o : object_type) :
  ∃ c t, strip_extents o = Tplain c t.
Proof. induction o as [c t|elem IH n]; simpl; eauto. Qed.

Lemma strip_extents_idempotent (o : object_type) :
  strip_extents (strip_extents o) = strip_extents o.
Proof. destruct (strip_extents_plain o) as (c & t & ->). reflexivity. Qed.

(** X18: the element type handed to [std::allocator] is never an array
    and never a reference; stripping it again changes nothing; and it
    is the same for [T], [T&], [T&&] and for arrays of any bound. *)
Theorem value_type_is_stripped (T : type) (o : object_type) (n : option N) :
  is_array (modulebound_allocator.value_type T) = false
  ∧ is_reference (modulebound_allocator.value_type T) = false
  ∧ modulebound_allocator.value_type (modulebound_allocator.value_type T)
    = modulebound_allocator.value_type T
  ∧ modulebound_allocator.value_type (add_lvalue_reference T)
    = modulebound_allocator.value_type T
  ∧ modulebound_allocator.value_type (add_rvalue_reference T)
    = modulebound_allocator.value_type T
  ∧ modulebound_allocator.value_type (object (Tarray o n))
    = modulebound_allocator.value_type (object o).
Proof.
  unfold modulebound_allocator.value_type, remove_reference_and_all_extents,
    remove_all_extents, remove_reference, is_array, is_reference, object. simpl.
  assert (referred (add_rvalue_reference T) = referred T) as -> by (by destruct T as [[] ?]).
  destruct (strip_extents_plain (referred T)) as (c & t & E).
  rewrite E. simpl. repeat split.
Qed.

(** *** The byte count in [size_t] *)

(** X19: [allocate] does not guard the multiplication: when
    [sizeof(value_type) * nCount] does not fit in [size_t], the raw
    function is called for fewer bytes than [nCount] elements take. *)
Theorem allocate_wraps_on_overflow `{Runtime} (tg : target) (T : type)
    (f : address → N → M address) (this : address) (nCount size : N)
    (st : state) (ops : raw_operators) :
  modulebound_allocator.allocate tg T = Compiled f →
  sizeof (modulebound_allocator.value_type T) = Some size →
  objects st !! this = Some ops →
  2 ^ size_t_bits tg ≤ size * nCount →
  ∃ bytes : N,
    calls (f this nCount st).2 = calls st ++ [call_allocate ops.1 bytes]
    ∧ bytes = (size * nCount) mod 2 ^ size_t_bits tg
    ∧ bytes < size * nCount.
Proof.
  intros Ef Es E Hov.
  destruct (allocate_compiled tg T f Ef) as (size' & Es' & ->).
  unfold modulebound_allocator.value_type in Es.
  assert (size' = size) as -> by congruence.
  exists (size_t_mul tg size nCount). split; [|split].
  - run. rewrite E. simpl. by destruct (invoke_allocate _ _ _) as [[q|] s].
  - reflexivity.
  - unfold size_t_mul.
    eapply N.lt_le_trans; [|exact Hov].
    apply N.mod_lt. by apply N.pow_nonzero.
Qed.

(** 2^30 [int]s with a 32-bit [size_t]: a request for 0 bytes. *)
Lemma allocate_wraps_on_overflow_witness :
  ∃ f, modulebound_allocator.allocate (H := example.process) example.msvc10 example.int
       = Compiled f ∧
  ∃ bytes : N,
    calls (f 1000 1073741824 example.st0).2
      = calls example.st0 ++ [call_allocate (100, 102).1 bytes]
    ∧ bytes = (4 * 1073741824) mod 2 ^ size_t_bits example.msvc10
    ∧ bytes < 4 * 1073741824.
Proof.
  eexists. split; [reflexivity|].
  exact (allocate_wraps_on_overflow (H := example.process) example.msvc10 example.int
           _ 1000 1073741824 4 example.st0 (100, 102)
           eq_refl eq_refl eq_refl ltac:(by vm_compute)).
Defined.
